(** * Settings/memory.js: the in-memory settings object

    A shallow embedding of [MemorySettings] (plugins/supported/Settings/memory.js)
    and of the few facts about its collaborators that the module relies on:
    SproutCore's key-value observing ([get], [set], [addObserver]), the
    extension catalog, the type plugin and the promise plugin. *)

From Stdlib Require Import ZArith Ascii String.
From stdpp Require Import base strings gmap list sorting pretty.

Local Open Scope Z_scope.
Local Open Scope string_scope.
Local Open Scope list_scope.

(** ** JavaScript values *)

(** The primitive values a setting can hold.  Numbers are kept to the
    integers, which is what the settings of the editor use. *)
Inductive value : Type :=
  | VUndefined
  | VNumber (n : Z)
  | VString (s : string)
  | VBoolean (b : bool).

#[global] Instance value_eq_dec : EqDecision value.
Proof. solve_decision. Defined.

(** ToBoolean. *)
Definition to_boolean (v : value) : bool :=
  match v with
  | VUndefined => false
  | VNumber n => negb (Z.eqb n 0)
  | VString s => negb (String.eqb s "")
  | VBoolean b => b
  end.

(** The prefix operator [!]. *)
Definition js_not (v : value) : value := VBoolean (negb (to_boolean v)).

(** The operator [===] on primitive values. *)
Definition strict_equal (a b : value) : bool := bool_decide (a = b).

(** A member that may be missing reads as [undefined]. *)
Definition member (o : option string) : value :=
  match o with
  | Some s => VString s
  | None => VUndefined
  end.

(** A value used as a property key is converted to a string. *)
Definition property_key (o : option string) : string := default "undefined" o.

(** ** Extensions, types and promises *)

(** An extension as the catalog hands it out: [settingExt.name],
    [settingExt.type] and [settingExt.defaultValue].  A missing [name] or
    [type] is [None], a missing [defaultValue] is [VUndefined]. *)
Record Extension : Type := {
  name : option string;
  type : option string;
  defaultValue : value
}.

(** Modelled from the spec: the type plugin (Types:types) is not part of
    these sources.  A resolved type validates a value and converts it from
    and to its string form; a conversion that fails yields [None]. *)
Record SettingType : Type := {
  isValid : value -> bool;
  fromString : value -> option value;
  toString : value -> option string
}.

(** A promise, seen at the moment its handlers have had their chance to run. *)
Inductive promise (A : Type) : Type :=
  | Resolved (a : A)
  | Rejected
  | Pending.
Arguments Resolved {A} a.
Arguments Rejected {A}.
Arguments Pending {A}.

(** [promise.then(onSuccess)]: the handler runs on the data of a resolved
    promise and not otherwise. *)
Definition on_resolved {A S : Type} (p : promise A) (handler : A -> S -> S) (s : S) : S :=
  match p with
  | Resolved a => handler a s
  | _ => s
  end.

(** Modelled from the spec: the promise plugin (Promise:core/promise) is not
    part of these sources.  As the comment in [_loadFromObject] says, the
    group of a list of promises gives the list of all their data; it has
    that list once every member is resolved. *)
Fixpoint groupPromises {A : Type} (ps : list (promise A)) : promise (list A) :=
  match ps with
  | [] => Resolved []
  | p :: rest =>
      match p, groupPromises rest with
      | Resolved a, Resolved l => Resolved (a :: l)
      | Rejected, _ => Rejected
      | _, Rejected => Rejected
      | _, _ => Pending
      end
  end.

(** ** What a call can do *)

(** What the module throws.  The strings of the source are kept as
    constructors that carry the parts the message is built from. *)
Inductive thrown : Type :=
  | NeedName                                   (* "Settings need 'name' members" *)
  | BadType (known : list (option string)) (got : option string)
                                               (* "choice.type should be one of [..]. Got .." *)
  | NeedDefaultValue                           (* "Settings need 'defaultValue' members" *)
  | BadDefault (d : value) (ty : option string) (* "Default value .. is not a valid .." *)
  | ReferenceError (identifier : string)
  | TypeError (expression : string).

Inductive result (A : Type) : Type :=
  | Returns (a : A)
  | Throws (e : thrown).
Arguments Returns {A} a.
Arguments Throws {A} e.

(** ** The settings object *)

(** The object is an [SC.Object]: a table of properties and the observers
    added to it.  Every observer of this module is the closure of
    [addSetting], which watches the key [settingExt.name] and reports that
    same name; it is recorded by that name, in the order of the
    [addObserver] calls.  [_changeValue] is empty in this class and is the
    hook a persistent subclass overrides; [changes] records its calls, oldest
    first. *)
Record MemorySettings : Type := {
  properties : gmap string value;
  observers : list string;
  changes : list (string * value)
}.

Definition create : MemorySettings :=
  {| properties := ∅; observers := []; changes := [] |}.

(** The object a call leaves behind: every [throw] of this module precedes
    the first mutation of the call. *)
Definition after (r : result MemorySettings) (before : MemorySettings) : MemorySettings :=
  match r with
  | Returns s => s
  | Throws _ => before
  end.

(** What [this] denotes inside a function: the settings object when the
    function was made with [.bind(this)], something else when it is a plain
    function called by another module. *)
Inductive receiver : Type :=
  | BoundToSettings
  | Unbound.

(** Identifiers that neither the module nor the enclosing function declares
    are looked up in the global scope: [choice] (used by [resetValue], read
    through [choice._settings]) and [prop] (used by [_list]). *)
Record GlobalScope : Type := {
  choice_settings : option (gmap string Extension);
  prop : option string
}.

(** Nothing in these sources defines either identifier. *)
Definition no_globals : GlobalScope :=
  {| choice_settings := None; prop := None |}.

(** Decimal digits, for the names that are array indices and for the
    number type of the examples. *)
Definition digit (a : ascii) : option Z :=
  let n := Z.of_nat (nat_of_ascii a) in
  if (48 <=? n)%Z && (n <=? 57)%Z then Some (n - 48)%Z else None.

Fixpoint parse_digits (acc : Z) (s : string) : option Z :=
  match s with
  | EmptyString => Some acc
  | String a rest =>
      match digit a with
      | Some d => parse_digits (10 * acc + d)%Z rest
      | None => None
      end
  end.

(** *** Plain objects

    A plain object ([{}] filled by assignment, or the data given to
    [_loadFromObject]) is the list of its own properties in the order they
    were created. *)

(** [o[key] = v] for a primitive [v]: the value of a key that is present is
    replaced and a new key is added at the end.  The key [__proto__] is the
    accessor of the prototype, which ignores a primitive: no own property
    is created. *)
Fixpoint assign_own (key : string) (v : value) (o : list (string * value)) : list (string * value) :=
  match o with
  | [] => [(key, v)]
  | (k, x) :: rest =>
      if String.eqb k key then (k, v) :: rest else (k, x) :: assign_own key v rest
  end.

Definition assign (key : string) (v : value) (o : list (string * value)) : list (string * value) :=
  if String.eqb key "__proto__" then o else assign_own key v o.

(** The same assignment on an object kept as a finite map, where the order
    of the keys is of no interest. *)
Definition put {A : Type} (key : string) (x : A) (o : gmap string A) : gmap string A :=
  if String.eqb key "__proto__" then o else <[key := x]> o.

(** A name is an array index when it is the decimal form, without leading
    zeros, of an integer from 0 to 2^32 - 2. *)
Definition array_index (key : string) : option Z :=
  match key with
  | EmptyString => None
  | String a rest =>
      if Ascii.eqb a "0" && negb (String.eqb rest "") then None
      else
        match parse_digits 0 key with
        | Some n => if (n <=? 4294967294)%Z then Some n else None
        | None => None
        end
  end.

Definition index_le (a b : string * value) : Prop :=
  (default 0 (array_index a.1) <= default 0 (array_index b.1))%Z.

#[global] Instance index_le_dec (a b : string * value) : Decision (index_le a b).
Proof. unfold index_le. apply _. Defined.

(** [for (var key in o)] visits the own properties whose names are array
    indices first, in ascending order of the index, and then the others in
    the order they were created. *)
Definition for_in (o : list (string * value)) : list (string * value) :=
  merge_sort index_le (filter (fun entry => is_Some (array_index entry.1)) o)
  ++ filter (fun entry => array_index entry.1 = None) o.

Section Settings.

(** [catalog.getExtensions(ep)]: the extensions of an extension point, in
    the order they were declared. *)
Variable getExtensions : string -> list Extension.

(** [types.getTypeExt(typeName)] followed by [typeExt.load]: the type of
    that name, if there is one. *)
Variable getTypeExt : option string -> option SettingType.

(** SproutCore's [set] is outside these sources.  Whether it tells the
    observers when the new value is identical to the stored one is left
    open: [true] when it does, [false] when it skips the call. *)
Variable notifiesUnchanged : bool.

Variable globals : GlobalScope.

(** Modelled from the spec: the catalog (bespin:plugins) is not part of
    these sources.  [catalog.getExtensionByKey(ep, key)] is the extension
    of the extension point [ep] whose name is [key]. *)
Definition getExtensionByKey (ep key : string) : option Extension :=
  find (fun ext => bool_decide (name ext = Some key)) (getExtensions ep).

(** [types.fromString(value, typeName)] and [types.toString(value, typeName)]. *)
Definition types_fromString (v : value) (typeName : option string) : promise value :=
  match getTypeExt typeName with
  | Some ty =>
      match fromString ty v with
      | Some x => Resolved x
      | None => Rejected
      end
  | None => Rejected
  end.

Definition types_toString (v : value) (typeName : option string) : promise string :=
  match getTypeExt typeName with
  | Some ty =>
      match toString ty v with
      | Some x => Resolved x
      | None => Rejected
      end
  | None => Rejected
  end.

(** *** Key-value observing *)

Definition get (key : string) (s : MemorySettings) : value :=
  default VUndefined (properties s !! key).

Definition _changeValue (key : string) (v : value) (s : MemorySettings) : MemorySettings :=
  {| properties := properties s;
     observers := observers s;
     changes := changes s ++ [(key, v)] |}.

(** The observer of [addSetting]:
    [this._changeValue(settingExt.name, this.get(settingExt.name))]. *)
Definition observer (settingName : string) (s : MemorySettings) : MemorySettings :=
  _changeValue settingName (get settingName s) s.

Definition notifyObservers (key : string) (s : MemorySettings) : MemorySettings :=
  foldl (fun acc settingName => observer settingName acc) s
        (filter (fun settingName => settingName = key) (observers s)).

Definition store (key : string) (v : value) (s : MemorySettings) : MemorySettings :=
  {| properties := <[key := v]> (properties s);
     observers := observers s;
     changes := changes s |}.

(** [set] is the one every [SC.Object] has: the module does not override
    it, and [addSetting] leaves neither the type nor its validator on the
    object, so a later [set] has none to ask.  It keeps the value under the
    key and calls the observers of that key. *)
Definition set (key : string) (v : value) (s : MemorySettings) : MemorySettings :=
  if negb notifiesUnchanged
     && negb (strict_equal (get key s) VUndefined)
     && strict_equal (get key s) v
  then s
  else notifyObservers key (store key v s).

Definition addObserver (key : string) (s : MemorySettings) : MemorySettings :=
  {| properties := properties s;
     observers := observers s ++ [key];
     changes := changes s |}.

(** [this.set(..)] inside a callback.  In a function that is not bound,
    [this] is whatever the caller passes, and the promise that calls the
    handler of [_loadFromObject] knows nothing of the settings object: what
    it passes has no [set], and calling it is a TypeError. *)
Definition this_set (this : receiver) (key : string) (v : value) (s : MemorySettings)
    : result MemorySettings :=
  match this with
  | BoundToSettings => Returns (set key v s)
  | Unbound => Throws (TypeError "this.set")
  end.

(** [promise.then(onSuccess)] with a handler that can throw: on a promise
    that is resolved the handler runs, and what it throws comes out of
    [then]. *)
Definition then_call {A S : Type} (p : promise A) (handler : A -> S -> result S) (s : S)
    : result S :=
  match p with
  | Resolved a => handler a s
  | _ => Returns s
  end.

(** *** The methods of the module *)

Definition _getSettingNames : list (option string) :=
  map name (getExtensions "setting").

(** [addSetting], once the promise of the type has been resolved.  The
    first [throw] reaches the caller; the others happen inside the
    callbacks. *)
Definition addSetting (settingExt : Extension) (s : MemorySettings) : result MemorySettings :=
  if negb (to_boolean (member (name settingExt))) then Throws NeedName
  else
    match getTypeExt (type settingExt) with
    | None => Throws (BadType _getSettingNames (type settingExt))
    | Some ty =>
        if strict_equal (js_not (defaultValue settingExt)) VUndefined
        then Throws NeedDefaultValue
        else if negb (isValid ty (defaultValue settingExt))
        then Throws (BadDefault (defaultValue settingExt) (type settingExt))
        else
          let key := property_key (name settingExt) in
          Returns (addObserver key (set key (defaultValue settingExt) s))
    end.

(** [resetValue].  [choice] is not declared in the module; when the global
    scope has none either, reading it throws.  [this.ignored] is an
    ordinary property of the object. *)
Definition resetValue (key : string) (s : MemorySettings) : result MemorySettings :=
  match choice_settings globals with
  | None => Throws (ReferenceError "choice")
  | Some settings =>
      match settings !! key with
      | Some setting => Returns (set key (defaultValue setting) s)
      | None =>
          if strict_equal (get "ignored" s) VUndefined
          then Throws (TypeError "this.ignored")
          else Returns s
      end
  end.

(** [_list].  The callback names its parameter [key] and reads [prop]; an
    entry [{'key': .., 'value': ..}] is a pair. *)
Definition list_step (s : MemorySettings) (reply : result (list (string * value)))
    (key : option string) : result (list (string * value)) :=
  match reply with
  | Throws e => Throws e
  | Returns entries =>
      match prop globals with
      | None => Throws (ReferenceError "prop")
      | Some p => Returns (entries ++ [(p, get p s)])
      end
  end.

Definition _list (s : MemorySettings) : result (list (string * value)) :=
  foldl (list_step s) (Returns []) _getSettingNames.

(** [_loadFromObject].  One round of the loop over the own properties of
    [data]: the extension is looked up in the extension point "type", and
    the handler given to [then] is a plain function, not bound to the
    settings object.  A round that throws ends the loop. *)
Definition load_step (acc : MemorySettings * result (list (promise value)))
    (entry : string * value) : MemorySettings * result (list (promise value)) :=
  let key := entry.1 in
  let v := entry.2 in
  match acc.2 with
  | Throws _ => acc
  | Returns promises =>
      match getExtensionByKey "type" key with
      | Some settingExt =>
          let p := types_fromString v (type settingExt) in
          match then_call p (fun x => this_set Unbound key x) acc.1 with
          | Returns s' => (s', Returns (promises ++ [p]))
          | Throws e => (acc.1, Throws e)
          end
      | None => acc
      end
  end.

(** The reply promise is resolved by the success handler of the group and
    by nothing else. *)
Definition reply_promise {A B : Type} (group : promise (list A)) (data : B) : promise B :=
  match group with
  | Resolved _ => Resolved data
  | _ => Pending
  end.

(** The object the call leaves, and what the call does: it returns the
    reply promise or it throws.  [data.hasOwnProperty(key)] calls the own
    property of that name when the data has one, and a primitive cannot be
    called. *)
Definition _loadFromObject (data : list (string * value)) (s : MemorySettings)
    : MemorySettings * result (promise unit) :=
  if bool_decide ("hasOwnProperty" ∈ data.*1)
  then (s, Throws (TypeError "data.hasOwnProperty"))
  else
    let loaded := foldl load_step (s, Returns []) (for_in data) in
    (loaded.1,
     match loaded.2 with
     | Returns promises => Returns (reply_promise (groupPromises promises) tt)
     | Throws e => Throws e
     end).

(** [_saveToObject].  The handler only writes into [reply]. *)
Definition save_step (s : MemorySettings) (acc : gmap string string * list (promise string))
    (settingName : option string) : gmap string string * list (promise string) :=
  let key := property_key settingName in
  let v := get key s in
  match getExtensionByKey "type" key with
  | Some settingExt =>
      let p := types_toString v (type settingExt) in
      (on_resolved p (fun x (reply : gmap string string) => put key x reply) acc.1,
       acc.2 ++ [p])
  | None => acc
  end.

Definition _saveToObject (s : MemorySettings) : promise (gmap string string) :=
  let saved := foldl (save_step s) (∅, []) _getSettingNames in
  reply_promise (groupPromises saved.2) saved.1.

Definition _defaultValues : list (string * value) :=
  foldl (fun defaultValues settingExt =>
           assign (property_key (name settingExt)) (defaultValue settingExt) defaultValues)
        [] (getExtensions "setting").

Definition _loadDefaultValues (s : MemorySettings) : MemorySettings * result (promise unit) :=
  _loadFromObject _defaultValues s.

(** [init] leaves this call to a timer; it runs once the object exists. *)
Definition _loadInitialValues (s : MemorySettings) : MemorySettings * result (promise unit) :=
  _loadDefaultValues s.

End Settings.

Arguments get key s : assert.
Arguments _changeValue key v s : assert.

(** ** A catalog and a type plugin to run the module on *)

Definition number_type : SettingType :=
  {| isValid := fun v => match v with VNumber _ => true | _ => false end;
     fromString := fun v =>
       match v with
       | VNumber n => Some (VNumber n)
       | VString EmptyString => None
       | VString s => VNumber <$> parse_digits 0 s
       | _ => None
       end;
     toString := fun v => match v with VNumber n => Some (pretty n) | _ => None end |}.

Definition string_type : SettingType :=
  {| isValid := fun v => match v with VString _ => true | _ => false end;
     fromString := fun v => match v with VString s => Some (VString s) | _ => None end;
     toString := fun v => match v with VString s => Some s | _ => None end |}.

Definition example_types (typeName : option string) : option SettingType :=
  match typeName with
  | Some "number" => Some number_type
  | Some "string" => Some string_type
  | _ => None
  end.

Definition type_extensions : list Extension :=
  [ {| name := Some "number"; type := None; defaultValue := VUndefined |};
    {| name := Some "string"; type := None; defaultValue := VUndefined |} ].

Definition tabsize : Extension :=
  {| name := Some "tabsize"; type := Some "number"; defaultValue := VNumber 4 |}.

Definition theme : Extension :=
  {| name := Some "theme"; type := Some "string"; defaultValue := VString "dark" |}.

(** The catalog with the given settings and the two types. *)
Definition example_catalog (settings : list Extension) (ep : string) : list Extension :=
  if String.eqb ep "setting" then settings
  else if String.eqb ep "type" then type_extensions
  else [].

(** The object after the declarations [exts] of the catalog have each been
    given to [addSetting], in order, starting from a new object. *)
Definition registered (notifiesUnchanged : bool) (exts : list Extension) : MemorySettings :=
  foldl (fun s ext =>
           after (addSetting (example_catalog exts) example_types notifiesUnchanged ext s) s)
        create exts.

(** A statement that holds whichever way SproutCore treats an unchanged
    value. *)
Definition under_both_policies (P : bool -> Prop) : Prop := P true /\ P false.

(** The setting [tabsize] after [set("tabsize", 8)]. *)
Definition tabsize_set_to_8 (notifiesUnchanged : bool) : MemorySettings :=
  set notifiesUnchanged "tabsize" (VNumber 8) (registered notifiesUnchanged [tabsize]).

(** A declaration without a [defaultValue], a second declaration of the
    same name, and one whose default is not a number. *)
Definition tabsize_without_default : Extension :=
  {| name := Some "tabsize"; type := Some "number"; defaultValue := VUndefined |}.

Definition tabsize_declared_again : Extension :=
  {| name := Some "tabsize"; type := Some "number"; defaultValue := VNumber 2 |}.

Definition tabsize_with_text_default : Extension :=
  {| name := Some "tabsize"; type := Some "number"; defaultValue := VString "abc" |}.

(** Persisted settings: one with a key that no setting has, one with a
    value that is not a number. *)
Definition snapshot_with_unknown_key : list (string * value) :=
  [("unknownKey", VString "x"); ("tabsize", VString "2")].

Definition snapshot_with_bad_number : list (string * value) :=
  [("tabsize", VString "abc"); ("theme", VString "light")].

(** The number of observers attached to a key. *)
Definition observer_count (key : string) (s : MemorySettings) : nat :=
  length (filter (fun n => n = key) (observers s)).

(** ** Sequences of calls *)

(** The calls a user of the object makes: the methods that can change it,
    and [set] itself. *)
Inductive operation : Type :=
  | CallAddSetting (settingExt : Extension)
  | CallSet (key : string) (v : value)
  | CallResetValue (key : string)
  | CallLoadFromObject (data : list (string * value))
  | CallLoadInitialValues.

(** Whether a call names the key [key]. *)
Definition names_key (key : string) (op : operation) : bool :=
  match op with
  | CallAddSetting settingExt => bool_decide (property_key (name settingExt) = key)
  | CallSet k _ => bool_decide (k = key)
  | CallResetValue k => bool_decide (k = key)
  | CallLoadFromObject _ => false
  | CallLoadInitialValues => false
  end.

Section Operations.

Variable getExtensions : string -> list Extension.
Variable getTypeExt : option string -> option SettingType.
Variable notifiesUnchanged : bool.
Variable globals : GlobalScope.

(** The object after one call; a call that throws leaves it as it was. *)
Definition perform (s : MemorySettings) (op : operation) : MemorySettings :=
  match op with
  | CallAddSetting settingExt =>
      after (addSetting getExtensions getTypeExt notifiesUnchanged settingExt s) s
  | CallSet key v => set notifiesUnchanged key v s
  | CallResetValue key => after (resetValue notifiesUnchanged globals key s) s
  | CallLoadFromObject data =>
      (_loadFromObject getExtensions getTypeExt notifiesUnchanged data s).1
  | CallLoadInitialValues =>
      (_loadInitialValues getExtensions getTypeExt notifiesUnchanged s).1
  end.

Definition run (ops : list operation) (s : MemorySettings) : MemorySettings :=
  foldl perform s ops.

(** The conversions the loop of [_loadFromObject] has to ask the type
    plugin for on the entries it visits: one for each key that the look-up
    finds. *)
Definition conversions_for (entries : list (string * value)) : list (promise value) :=
  omap (fun entry : string * value =>
          match getExtensionByKey getExtensions "type" entry.1 with
          | Some settingExt => Some (types_fromString getTypeExt entry.2 (type settingExt))
          | None => None
          end) entries.

Definition requested_conversions (data : list (string * value)) : list (promise value) :=
  conversions_for (for_in data).

(** The last declaration of the catalog whose name makes the key [key]. *)
Definition last_declared (key : string) : option Extension :=
  find (fun settingExt => bool_decide (property_key (name settingExt) = key))
       (reverse (getExtensions "setting")).

(** Whether a declaration passes the three checks of [addSetting] that can
    fail: a name, a known type, a default value the type finds valid. *)
Definition accepts (settingExt : Extension) : bool :=
  to_boolean (member (name settingExt))
  && match getTypeExt (type settingExt) with
     | Some ty => isValid ty (defaultValue settingExt)
     | None => false
     end.

(** Whether a call is an [addSetting] that passes these checks and
    registers the key [key], and the number of such calls in [ops]. *)
Definition registers (key : string) (op : operation) : bool :=
  match op with
  | CallAddSetting settingExt =>
      accepts settingExt && bool_decide (property_key (name settingExt) = key)
  | _ => false
  end.

Definition registrations (key : string) (ops : list operation) : nat :=
  length (filter (fun op => registers key op = true) ops).

End Operations.

(** Every name [_changeValue] was called for has an observer. *)
Definition notified_names_registered (s : MemorySettings) : Prop :=
  forall (k : string) (v : value), (k, v) ∈ changes s -> k ∈ observers s.

(** Nothing of [s] is gone in [s']: no property, no observer, no recorded
    call. *)
Definition keeps (s s' : MemorySettings) : Prop :=
  dom (properties s) ⊆ dom (properties s')
  /\ observers s `prefix_of` observers s'
  /\ changes s `prefix_of` changes s'.

Definition is_resolved {A : Type} (p : promise A) : Prop := exists a : A, p = Resolved a.

(** ** Key-value observing: what [set] does *)

Section ObservingFacts.

Variable notifiesUnchanged : bool.

Lemma properties_observers_run (names : list string) (s : MemorySettings) :
  properties (foldl (fun acc n => observer n acc) s names) = properties s
  /\ observers (foldl (fun acc n => observer n acc) s names) = observers s.
Proof.
  revert s. induction names as [|n names IH]; intros s; simpl; [done|].
  destruct (IH (observer n s)) as [Hp Ho]. by rewrite Hp, Ho.
Qed.

Lemma changes_observers_run (key : string) (names : list string) (s : MemorySettings) :
  Forall (fun n => n = key) names ->
  changes (foldl (fun acc n => observer n acc) s names)
  = changes s ++ replicate (length names) (key, get key s).
Proof.
  intros Hall. revert s. induction Hall as [|n names -> _ IH]; intros s; simpl.
  - by rewrite app_nil_r.
  - rewrite IH. unfold observer, _changeValue, get. simpl.
    by rewrite <- app_assoc.
Qed.

Lemma get_store (key : string) (v : value) (s : MemorySettings) :
  get key (store key v s) = v.
Proof. unfold get, store. simpl. by rewrite lookup_insert_eq. Qed.

Lemma get_notifyObservers (key k : string) (s : MemorySettings) :
  get k (notifyObservers key s) = get k s.
Proof.
  unfold get, notifyObservers.
  by rewrite (proj1 (properties_observers_run _ s)).
Qed.

Lemma get_set (key : string) (v : value) (s : MemorySettings) :
  get key (set notifiesUnchanged key v s) = v.
Proof.
  unfold set. case_match eqn:Hskip.
  - apply andb_prop in Hskip as [_ Heq].
    unfold strict_equal in Heq. by apply bool_decide_eq_true_1 in Heq.
  - by rewrite get_notifyObservers, get_store.
Qed.

Lemma observers_set (key : string) (v : value) (s : MemorySettings) :
  observers (set notifiesUnchanged key v s) = observers s.
Proof.
  unfold set. case_match; [done|]. unfold notifyObservers.
  by rewrite (proj2 (properties_observers_run _ _)).
Qed.

Lemma changes_notifyObservers (key : string) (s : MemorySettings) :
  changes (notifyObservers key s)
  = changes s ++ replicate (observer_count key s) (key, get key s).
Proof.
  unfold notifyObservers, observer_count. apply changes_observers_run.
  apply Forall_forall. intros n Hn. by apply list_elem_of_filter in Hn as [-> _].
Qed.

Lemma changes_set (key : string) (v : value) (s : MemorySettings) :
  changes (set notifiesUnchanged key v s)
  = changes s ++
    (if negb notifiesUnchanged
        && negb (strict_equal (get key s) VUndefined)
        && strict_equal (get key s) v
     then []
     else replicate (observer_count key s) (key, v)).
Proof.
  unfold set. case_match.
  - by rewrite app_nil_r.
  - rewrite changes_notifyObservers. by rewrite get_store.
Qed.

Lemma changes_set_changed (key : string) (v : value) (s : MemorySettings) :
  get key s <> v ->
  changes (set notifiesUnchanged key v s)
  = changes s ++ replicate (observer_count key s) (key, v).
Proof.
  intros Hne. rewrite changes_set.
  replace (strict_equal (get key s) v) with false; [by rewrite andb_false_r|].
  symmetry. unfold strict_equal. by apply bool_decide_eq_false_2.
Qed.

Lemma observer_count_addObserver (key : string) (s : MemorySettings) :
  observer_count key (addObserver key s) = S (observer_count key s).
Proof.
  unfold observer_count, addObserver. simpl.
  rewrite filter_app, length_app. simpl.
  rewrite filter_cons_True by done. simpl. lia.
Qed.

Lemma observer_count_absent (key : string) (s : MemorySettings) :
  key ∉ observers s -> observer_count key s = 0%nat.
Proof.
  intros Hnot. unfold observer_count.
  destruct (filter (fun n => n = key) (observers s)) as [|n l] eqn:Hf; [done|].
  assert (n ∈ filter (fun n => n = key) (observers s)) as Hin
    by (rewrite Hf; left).
  apply list_elem_of_filter in Hin as [-> Hin]. done.
Qed.

End ObservingFacts.

(** ** Registration *)

Section RegistrationFacts.

Variable getExtensions : string -> list Extension.
Variable getTypeExt : option string -> option SettingType.
Variable notifiesUnchanged : bool.

Lemma addSetting_valid (settingExt : Extension) (s : MemorySettings) (ty : SettingType) :
  to_boolean (member (name settingExt)) = true ->
  getTypeExt (type settingExt) = Some ty ->
  addSetting getExtensions getTypeExt notifiesUnchanged settingExt s
  = if isValid ty (defaultValue settingExt)
    then Returns (addObserver (property_key (name settingExt))
                    (set notifiesUnchanged (property_key (name settingExt))
                       (defaultValue settingExt) s))
    else Throws (BadDefault (defaultValue settingExt) (type settingExt)).
Proof.
  intros Hname Hty. unfold addSetting. rewrite Hname, Hty. simpl.
  by destruct (isValid ty (defaultValue settingExt)).
Qed.

(** C10: the guard [!settingExt.defaultValue === undefined] of [addSetting]
    compares a boolean with [undefined] and is false for every argument, so
    "Settings need 'defaultValue' members" is never thrown; a declaration
    with a name and a known type, with or without a [defaultValue], goes on
    to the validator of its type, which alone decides between the
    registration and "Default value .. is not a valid ..". *)
Theorem defaultValue_guard_never_holds (settingExt : Extension) (s : MemorySettings) :
  strict_equal (js_not (defaultValue settingExt)) VUndefined = false
  /\ addSetting getExtensions getTypeExt notifiesUnchanged settingExt s
     <> Throws NeedDefaultValue
  /\ forall ty : SettingType,
       to_boolean (member (name settingExt)) = true ->
       getTypeExt (type settingExt) = Some ty ->
       addSetting getExtensions getTypeExt notifiesUnchanged settingExt s
       = if isValid ty (defaultValue settingExt)
         then Returns (addObserver (property_key (name settingExt))
                         (set notifiesUnchanged (property_key (name settingExt))
                            (defaultValue settingExt) s))
         else Throws (BadDefault (defaultValue settingExt) (type settingExt)).
Proof.
  split; [done|]. split.
  - unfold addSetting.
    destruct (negb (to_boolean (member (name settingExt)))); [done|].
    destruct (getTypeExt (type settingExt)) as [ty|]; [|done]. simpl.
    by destruct (negb (isValid ty (defaultValue settingExt))).
  - intros ty Hname Hty. by apply addSetting_valid.
Qed.

(** C1, as the module has it: a declaration whose [defaultValue] fails the
    validator of its type makes [addSetting] throw "Default value .. is not
    a valid .." and leaves the object as it was, so no invalid default is
    kept.  [set] itself consults no validator: it cannot fail, and [get]
    then returns the value that was set, valid or not. *)
Theorem addSetting_rejects_invalid_default
    (settingExt : Extension) (s : MemorySettings) (ty : SettingType) :
  to_boolean (member (name settingExt)) = true ->
  getTypeExt (type settingExt) = Some ty ->
  isValid ty (defaultValue settingExt) = false ->
  addSetting getExtensions getTypeExt notifiesUnchanged settingExt s
  = Throws (BadDefault (defaultValue settingExt) (type settingExt))
  /\ after (addSetting getExtensions getTypeExt notifiesUnchanged settingExt s) s = s
  /\ forall (key : string) (v : value) (s' : MemorySettings),
       get key (set notifiesUnchanged key v s') = v.
Proof.
  intros Hname Hty Hbad.
  rewrite (addSetting_valid settingExt s ty Hname Hty), Hbad.
  repeat split. intros key v s'. apply get_set.
Qed.

Lemma addSetting_accepted
    (settingExt : Extension) (s : MemorySettings) (ty : SettingType) :
  to_boolean (member (name settingExt)) = true ->
  getTypeExt (type settingExt) = Some ty ->
  isValid ty (defaultValue settingExt) = true ->
  exists s' : MemorySettings,
    addSetting getExtensions getTypeExt notifiesUnchanged settingExt s = Returns s'
    /\ get (property_key (name settingExt)) s' = defaultValue settingExt
    /\ observers s' = observers s ++ [property_key (name settingExt)]
    /\ observer_count (property_key (name settingExt)) s'
       = S (observer_count (property_key (name settingExt)) s).
Proof.
  intros Hname Hty Hok.
  rewrite (addSetting_valid settingExt s ty Hname Hty), Hok.
  eexists. split; [done|].
  set (key := property_key (name settingExt)).
  set (s1 := set notifiesUnchanged key (defaultValue settingExt) s).
  assert (observer_count key s1 = observer_count key s) as Hcount
    by (unfold observer_count, s1; by rewrite observers_set).
  repeat split.
  - unfold get, addObserver. simpl. apply (get_set notifiesUnchanged).
  - unfold addObserver. simpl. unfold s1. by rewrite observers_set.
  - by rewrite observer_count_addObserver, Hcount.
Qed.

(** C4, as the module has it: [addSetting] looks for no earlier
    registration.  When two declarations with the same name, known types
    and valid defaults are registered one after the other, the second call
    returns normally like the first: the value of the setting becomes the
    [defaultValue] of the second declaration and the name has one more
    observer. *)
Theorem addSetting_again_overwrites
    (first second : Extension) (s : MemorySettings) (ty1 ty2 : SettingType) :
  to_boolean (member (name first)) = true ->
  name second = name first ->
  getTypeExt (type first) = Some ty1 ->
  getTypeExt (type second) = Some ty2 ->
  isValid ty1 (defaultValue first) = true ->
  isValid ty2 (defaultValue second) = true ->
  exists s1 s2 : MemorySettings,
    addSetting getExtensions getTypeExt notifiesUnchanged first s = Returns s1
    /\ addSetting getExtensions getTypeExt notifiesUnchanged second s1 = Returns s2
    /\ get (property_key (name first)) s2 = defaultValue second
    /\ observer_count (property_key (name first)) s2
       = S (S (observer_count (property_key (name first)) s)).
Proof.
  intros Hname Hsame Hty1 Hty2 Hok1 Hok2.
  destruct (addSetting_accepted first s ty1 Hname Hty1 Hok1)
    as (s1 & Hadd1 & _ & _ & Hcount1).
  assert (to_boolean (member (name second)) = true) as Hname2 by by rewrite Hsame.
  destruct (addSetting_accepted second s1 ty2 Hname2 Hty2 Hok2)
    as (s2 & Hadd2 & Hget2 & _ & Hcount2).
  rewrite Hsame in Hget2, Hcount2.
  exists s1, s2. repeat split; [done..|]. by rewrite Hcount2, Hcount1.
Qed.

(** C2, as the module has it: [set(name, value)] followed by [get(name)]
    returns [value], for every value.  The set tells each observer attached
    to the name, which reports [(name, value)]: one notification for each
    [addSetting] of that name, and none when SproutCore skips a set that
    leaves a defined value as it is.  A name with one observer whose value
    changes gets exactly one notification. *)
Theorem set_then_get_and_notifications (key : string) (v : value) (s : MemorySettings) :
  get key (set notifiesUnchanged key v s) = v
  /\ changes (set notifiesUnchanged key v s)
     = changes s ++
       (if negb notifiesUnchanged
           && negb (strict_equal (get key s) VUndefined)
           && strict_equal (get key s) v
        then []
        else replicate (observer_count key s) (key, v))
  /\ (observer_count key s = 1%nat ->
      get key s <> v ->
      changes (set notifiesUnchanged key v s) = changes s ++ [(key, v)]).
Proof.
  split; [apply get_set|]. split; [apply changes_set|].
  intros Hone Hne. by rewrite changes_set_changed, Hone.
Qed.

End RegistrationFacts.

(** ** Reset, list, load and save *)

Lemma resetValue_without_choice (notifiesUnchanged : bool) (key : string) (s : MemorySettings) :
  resetValue notifiesUnchanged no_globals key s = Throws (ReferenceError "choice").
Proof. reflexivity. Qed.

(** With a global [choice] that knows the setting, [resetValue] does go
    through [set] with the default value. *)
Lemma resetValue_with_choice (notifiesUnchanged : bool) (settings : gmap string Extension)
    (p : option string) (key : string) (setting : Extension) (s : MemorySettings) :
  settings !! key = Some setting ->
  resetValue notifiesUnchanged {| choice_settings := Some settings; prop := p |} key s
  = Returns (set notifiesUnchanged key (defaultValue setting) s).
Proof. intros Hfound. unfold resetValue. simpl. by rewrite Hfound. Qed.

Lemma list_step_thrown (s : MemorySettings) (e : thrown) (names : list (option string)) :
  foldl (list_step no_globals s) (Throws e) names = Throws e.
Proof. induction names as [|n names IH]; [done|]. simpl. apply IH. Qed.

Lemma list_without_prop (getExtensions : string -> list Extension) (s : MemorySettings) :
  getExtensions "setting" <> [] ->
  _list getExtensions no_globals s = Throws (ReferenceError "prop").
Proof.
  intros Hsome. unfold _list, _getSettingNames.
  destruct (getExtensions "setting") as [|ext exts]; [done|]. simpl.
  apply list_step_thrown.
Qed.

Lemma load_steps_object (getExtensions : string -> list Extension)
    (getTypeExt : option string -> option SettingType) (notifiesUnchanged : bool)
    (data : list (string * value)) (acc : MemorySettings * result (list (promise value))) :
  (foldl (load_step getExtensions getTypeExt notifiesUnchanged) acc data).1 = acc.1.
Proof.
  revert acc. induction data as [|entry data IH]; intros acc; [done|].
  simpl. rewrite IH. unfold load_step.
  destruct acc.2 as [promises|e]; [|done].
  destruct (getExtensionByKey getExtensions "type" entry.1) as [settingExt|]; [|done].
  by destruct (types_fromString getTypeExt entry.2 (type settingExt)).
Qed.

(** Whatever the catalog, the types and the data, [_loadFromObject] leaves
    the settings object as it found it. *)
Lemma loadFromObject_object (getExtensions : string -> list Extension)
    (getTypeExt : option string -> option SettingType) (notifiesUnchanged : bool)
    (data : list (string * value)) (s : MemorySettings) :
  (_loadFromObject getExtensions getTypeExt notifiesUnchanged data s).1 = s.
Proof.
  unfold _loadFromObject. case_bool_decide; [done|].
  simpl. by rewrite load_steps_object.
Qed.

(** Once a requested conversion is rejected, the promise that
    [_loadFromObject] and [_saveToObject] return is neither resolved nor
    rejected. *)
Lemma reply_pending_after_rejection {A B : Type} (ps : list (promise A)) (data : B) :
  Rejected ∈ ps -> reply_promise (groupPromises ps) data = Pending.
Proof.
  intros Hin. assert (groupPromises ps = Rejected) as Hgroup.
  { induction ps as [|p ps IH]; [by apply not_elem_of_nil in Hin|].
    apply elem_of_cons in Hin as [<- | Hin]; simpl; [done|].
    rewrite (IH Hin). by destruct p. }
  by rewrite Hgroup.
Qed.

(** ** The module on the example catalog *)

(** C1 fails on the module: "abc" is not a valid number, yet setting it on
    the registered number setting [tabsize] succeeds and replaces the 4 it
    held. *)
Lemma set_stores_invalid_value :
  under_both_policies (fun p =>
    example_types (type tabsize) = Some number_type
    /\ isValid number_type (VString "abc") = false
    /\ get "tabsize" (registered p [tabsize]) = VNumber 4
    /\ get "tabsize" (set p "tabsize" (VString "abc") (registered p [tabsize]))
       = VString "abc"
    /\ get "tabsize" (set p "tabsize" (VString "abc") (registered p [tabsize]))
       <> get "tabsize" (registered p [tabsize])).
Proof. split; vm_compute; by repeat split. Qed.

Lemma addSetting_rejects_invalid_default_witness :
  isValid number_type (defaultValue tabsize_with_text_default) = false
  /\ addSetting (example_catalog []) example_types true tabsize_with_text_default create
     = Throws (BadDefault (VString "abc") (Some "number"))
  /\ after (addSetting (example_catalog []) example_types true
              tabsize_with_text_default create) create = create.
Proof.
  split; [reflexivity|].
  destruct (addSetting_rejects_invalid_default (example_catalog []) example_types true
              tabsize_with_text_default create number_type
              eq_refl eq_refl eq_refl) as (Hthrows & Hafter & _).
  split; [exact Hthrows | exact Hafter].
Defined.

(** C2 fails on the module: a name given to [addSetting] twice has two
    observers, and one [set] is reported twice. *)
Lemma set_notifies_twice_after_two_registrations :
  under_both_policies (fun p =>
    get "tabsize" (set p "tabsize" (VNumber 8) (registered p [tabsize; tabsize]))
    = VNumber 8
    /\ changes (set p "tabsize" (VNumber 8) (registered p [tabsize; tabsize]))
       = changes (registered p [tabsize; tabsize])
         ++ [("tabsize", VNumber 8); ("tabsize", VNumber 8)]
    /\ changes (set p "tabsize" (VNumber 8) (registered p [tabsize; tabsize]))
       <> changes (registered p [tabsize; tabsize]) ++ [("tabsize", VNumber 8)]).
Proof. split; vm_compute; by repeat split. Qed.

Lemma set_then_get_and_notifications_witness :
  observer_count "tabsize" (registered false [tabsize]) = 1%nat
  /\ get "tabsize" (registered false [tabsize]) <> VNumber 8
  /\ changes (set false "tabsize" (VNumber 8) (registered false [tabsize]))
     = changes (registered false [tabsize]) ++ [("tabsize", VNumber 8)].
Proof.
  assert (observer_count "tabsize" (registered false [tabsize]) = 1%nat) as Hone
    by reflexivity.
  assert (get "tabsize" (registered false [tabsize]) <> VNumber 8) as Hne
    by (vm_compute; discriminate).
  split; [exact Hone|]. split; [exact Hne|].
  destruct (set_then_get_and_notifications false "tabsize" (VNumber 8)
              (registered false [tabsize])) as (_ & _ & Hexactly).
  exact (Hexactly Hone Hne).
Defined.

(** C3 fails on the module: [resetValue] reads the undeclared [choice] and
    throws before it reaches [set]; the setting keeps the 8 it was set to
    instead of going back to its default 4, and nothing is notified. *)
Theorem resetValue_throws_on_registered_setting :
  under_both_policies (fun p =>
    defaultValue tabsize = VNumber 4
    /\ resetValue p no_globals "tabsize" (tabsize_set_to_8 p)
       = Throws (ReferenceError "choice")
    /\ get "tabsize"
         (after (resetValue p no_globals "tabsize" (tabsize_set_to_8 p))
                (tabsize_set_to_8 p))
       = VNumber 8
    /\ changes (after (resetValue p no_globals "tabsize" (tabsize_set_to_8 p))
                      (tabsize_set_to_8 p))
       = changes (tabsize_set_to_8 p)).
Proof. split; vm_compute; by repeat split. Qed.

(** C4 fails on the module: a second [addSetting] of [tabsize] returns
    normally and puts the setting, which had been set to 8, back to 4. *)
Lemma second_registration_is_accepted :
  under_both_policies (fun p =>
    get "tabsize" (tabsize_set_to_8 p) = VNumber 8
    /\ exists s' : MemorySettings,
         addSetting (example_catalog [tabsize]) example_types p tabsize
                    (tabsize_set_to_8 p) = Returns s'
         /\ get "tabsize" s' = VNumber 4
         /\ get "tabsize" s' <> get "tabsize" (tabsize_set_to_8 p)
         /\ observers s' = ["tabsize"; "tabsize"]).
Proof. split; (split; [reflexivity|]); eexists; by vm_compute. Qed.

Lemma addSetting_again_overwrites_witness :
  name tabsize_declared_again = name tabsize
  /\ exists s1 s2 : MemorySettings,
       addSetting (example_catalog []) example_types true tabsize create = Returns s1
       /\ addSetting (example_catalog []) example_types true tabsize_declared_again s1
          = Returns s2
       /\ get "tabsize" s2 = VNumber 2
       /\ observer_count "tabsize" s2 = 2%nat.
Proof.
  split; [reflexivity|].
  exact (addSetting_again_overwrites (example_catalog []) example_types true
           tabsize tabsize_declared_again create number_type number_type
           eq_refl eq_refl eq_refl eq_refl eq_refl eq_refl).
Defined.

(** C5 fails on the module: with only [tabsize] registered (number, default
    4), loading [{"unknownKey": "x", "tabsize": "2"}] looks both keys up in
    the extension point "type", finds neither, and leaves [tabsize] at 4
    although "2" parses to 2. *)
Theorem loadFromObject_spec_example_not_applied :
  under_both_policies (fun p =>
    fromString number_type (VString "2") = Some (VNumber 2)
    /\ getExtensionByKey (example_catalog [tabsize]) "setting" "tabsize" = Some tabsize
    /\ getExtensionByKey (example_catalog [tabsize]) "type" "tabsize" = None
    /\ get "tabsize"
         (_loadFromObject (example_catalog [tabsize]) example_types p
            snapshot_with_unknown_key (registered p [tabsize])).1
       = VNumber 4).
Proof. split; vm_compute; by repeat split. Qed.

(** C6 fails on the module: with [tabsize] and [theme] registered, loading
    [{"tabsize": "abc", "theme": "light"}] does not apply the well-formed
    "light" to [theme], which stays at "dark". *)
Theorem loadFromObject_other_key_not_applied :
  under_both_policies (fun p =>
    fromString number_type (VString "abc") = None
    /\ fromString string_type (VString "light") = Some (VString "light")
    /\ get "theme" (registered p [tabsize; theme]) = VString "dark"
    /\ get "theme"
         (_loadFromObject (example_catalog [tabsize; theme]) example_types p
            snapshot_with_bad_number (registered p [tabsize; theme])).1
       = VString "dark").
Proof. split; vm_compute; by repeat split. Qed.

(** C7 fails on the module: with the settings [tabsize] at 4 and [theme] at
    "dark", [_saveToObject] looks each name up in the extension point
    "type", finds none and resolves with the empty object instead of
    [{"tabsize": "4", "theme": "dark"}]. *)
Theorem saveToObject_spec_example_empty :
  under_both_policies (fun p =>
    get "tabsize" (registered p [tabsize; theme]) = VNumber 4
    /\ get "theme" (registered p [tabsize; theme]) = VString "dark"
    /\ toString number_type (VNumber 4) = Some "4"
    /\ toString string_type (VString "dark") = Some "dark"
    /\ _saveToObject (example_catalog [tabsize; theme]) example_types
         (registered p [tabsize; theme])
       = Resolved ∅).
Proof. split; vm_compute; by repeat split. Qed.

(** C8 fails on the module: [addSetting] applies the default 4 of [tabsize]
    with a successful [set], and [_changeValue] is called for nothing. *)
Lemma default_application_not_notified :
  under_both_policies (fun p =>
    exists s' : MemorySettings,
      addSetting (example_catalog [tabsize]) example_types p tabsize create = Returns s'
      /\ get "tabsize" s' = VNumber 4
      /\ changes s' = []
      /\ changes s' <> [("tabsize", VNumber 4)]).
Proof. split; eexists; by vm_compute. Qed.

(** C9 fails on the module: with one registered setting, [_list] reads the
    undeclared [prop] in its first round and throws instead of returning
    [("tabsize", 4)]. *)
Theorem list_throws_on_registered_setting :
  under_both_policies (fun p =>
    _getSettingNames (example_catalog [tabsize]) = [Some "tabsize"]
    /\ get "tabsize" (registered p [tabsize]) = VNumber 4
    /\ _list (example_catalog [tabsize]) no_globals (registered p [tabsize])
       = Throws (ReferenceError "prop")).
Proof. split; vm_compute; by repeat split. Qed.

Lemma defaultValue_guard_never_holds_witness :
  to_boolean (member (name tabsize_without_default)) = true
  /\ example_types (type tabsize_without_default) = Some number_type
  /\ addSetting (example_catalog []) example_types true tabsize_without_default create
     = Throws (BadDefault VUndefined (Some "number")).
Proof.
  split; [reflexivity|]. split; [reflexivity|].
  destruct (defaultValue_guard_never_holds (example_catalog []) example_types true
              tabsize_without_default create) as (_ & _ & Hvalidator).
  exact (Hvalidator number_type eq_refl eq_refl).
Defined.

(** ** Further properties of registration and of sequences of calls *)

Section CallFacts.

Variable getExtensions : string -> list Extension.
Variable getTypeExt : option string -> option SettingType.
Variable notifiesUnchanged : bool.
Variable globals : GlobalScope.

Lemma properties_set (key : string) (v : value) (s : MemorySettings) :
  properties (set notifiesUnchanged key v s) = <[key := v]> (properties s).
Proof.
  unfold set. case_match eqn:Hskip.
  - apply andb_prop in Hskip as [Hskip Hsame].
    apply andb_prop in Hskip as [_ Hdefined].
    unfold strict_equal, get in Hsame, Hdefined.
    apply bool_decide_eq_true_1 in Hsame.
    destruct (properties s !! key) as [x|] eqn:Hkey; simpl in *.
    + subst x. symmetry. by apply insert_id.
    + done.
  - unfold notifyObservers.
    by rewrite (proj1 (properties_observers_run _ _)).
Qed.

Lemma observer_count_elem_of (key : string) (s : MemorySettings) :
  observer_count key s <> 0%nat -> key ∈ observers s.
Proof.
  intros Hcount. destruct (decide (key ∈ observers s)) as [|Hnot]; [done|].
  by apply observer_count_absent in Hnot.
Qed.

Lemma addSetting_returns_inv (settingExt : Extension) (s s' : MemorySettings) :
  addSetting getExtensions getTypeExt notifiesUnchanged settingExt s = Returns s' ->
  to_boolean (member (name settingExt)) = true
  /\ exists ty : SettingType,
       getTypeExt (type settingExt) = Some ty
       /\ isValid ty (defaultValue settingExt) = true
       /\ s' = addObserver (property_key (name settingExt))
                 (set notifiesUnchanged (property_key (name settingExt))
                    (defaultValue settingExt) s).
Proof.
  unfold addSetting.
  destruct (to_boolean (member (name settingExt))); simpl; [|done].
  destruct (getTypeExt (type settingExt)) as [ty|]; [|done].
  destruct (isValid ty (defaultValue settingExt)) eqn:Hok; simpl; [|done].
  intros [= <-]. split; [done|]. by exists ty.
Qed.

(** X1: [addSetting] registers the setting exactly when the declaration has
    a non-empty name, its type is known to the type plugin and its default
    value passes the validator of that type; nothing the object already
    holds can make it refuse or accept. *)
Theorem addSetting_returns_iff (settingExt : Extension) (s : MemorySettings) :
  (exists s' : MemorySettings,
     addSetting getExtensions getTypeExt notifiesUnchanged settingExt s = Returns s')
  <-> to_boolean (member (name settingExt)) = true
      /\ exists ty : SettingType,
           getTypeExt (type settingExt) = Some ty
           /\ isValid ty (defaultValue settingExt) = true.
Proof.
  split.
  - intros [s' Hadd].
    apply addSetting_returns_inv in Hadd as (Hname & ty & Hty & Hok & _).
    split; [done|]. by exists ty.
  - intros (Hname & ty & Hty & Hok).
    rewrite (addSetting_valid _ _ _ settingExt s ty Hname Hty), Hok. by eexists.
Qed.

(** X2: a call of [addSetting] that returns has changed the object in three
    ways and no other: the property of the name holds the default value
    (every other property is as before), the name has one more observer at
    the end of the list, and the calls of [_changeValue] it caused, at most
    one for each observer the name already had, all report the name with
    the default value.  The value it leaves is valid for the declared type. *)
Theorem addSetting_postcondition (settingExt : Extension) (s s' : MemorySettings) :
  addSetting getExtensions getTypeExt notifiesUnchanged settingExt s = Returns s' ->
  properties s'
  = <[property_key (name settingExt) := defaultValue settingExt]> (properties s)
  /\ observers s' = observers s ++ [property_key (name settingExt)]
  /\ (exists n : nat,
        (n <= observer_count (property_key (name settingExt)) s)%nat
        /\ changes s'
           = changes s
             ++ replicate n (property_key (name settingExt), defaultValue settingExt))
  /\ exists ty : SettingType,
       getTypeExt (type settingExt) = Some ty
       /\ isValid ty (get (property_key (name settingExt)) s') = true.
Proof.
  intros Hadd.
  apply addSetting_returns_inv in Hadd as (_ & ty & Hty & Hok & ->).
  set (key := property_key (name settingExt)).
  set (d := defaultValue settingExt).
  split; [apply properties_set|].
  split; [unfold addObserver; simpl; by rewrite observers_set|].
  split.
  - unfold addObserver. simpl. rewrite changes_set.
    case_match.
    + exists 0%nat. split; [lia|done].
    + exists (observer_count key s). split; [lia|done].
  - exists ty. split; [done|].
    replace (get key (addObserver key (set notifiesUnchanged key d s))) with d; [done|].
    symmetry. apply (get_set notifiesUnchanged).
Qed.

Lemma notified_set (key : string) (v : value) (s : MemorySettings) :
  notified_names_registered s ->
  notified_names_registered (set notifiesUnchanged key v s).
Proof.
  intros Hinv k x. rewrite changes_set, observers_set.
  intros [Hold|Hnew]%elem_of_app; [by eapply Hinv|].
  case_match; [by apply not_elem_of_nil in Hnew|].
  apply elem_of_replicate in Hnew as [[= -> ->] Hcount].
  by apply observer_count_elem_of.
Qed.

Lemma notified_addObserver (key : string) (s : MemorySettings) :
  notified_names_registered s -> notified_names_registered (addObserver key s).
Proof.
  intros Hinv k x Hin. unfold addObserver in *. simpl in *.
  apply elem_of_app. left. by eapply Hinv.
Qed.

Lemma loadInitialValues_object (s : MemorySettings) :
  (_loadInitialValues getExtensions getTypeExt notifiesUnchanged s).1 = s.
Proof. unfold _loadInitialValues, _loadDefaultValues. apply loadFromObject_object. Qed.

Lemma notified_perform (s : MemorySettings) (op : operation) :
  notified_names_registered s ->
  notified_names_registered
    (perform getExtensions getTypeExt notifiesUnchanged globals s op).
Proof.
  intros Hinv. destruct op as [settingExt|key v|key|data|]; cbn [perform].
  - destruct (addSetting getExtensions getTypeExt notifiesUnchanged settingExt s)
      as [s'|e] eqn:Hadd; [|done].
    apply addSetting_returns_inv in Hadd as (_ & ty & _ & _ & ->). simpl.
    by apply notified_addObserver, notified_set.
  - by apply notified_set.
  - unfold resetValue. destruct (choice_settings globals) as [settings|]; [|done].
    destruct (settings !! key) as [setting|]; simpl; [by apply notified_set|].
    by case_match.
  - by rewrite loadFromObject_object.
  - by rewrite loadInitialValues_object.
Qed.

(** X3: whatever calls are made on a new object, in whatever order, and
    whether they return or throw, [_changeValue] is only ever called for a
    name that [addSetting] has given an observer: a [set] on a name that was
    never registered is reported to nobody. *)
Theorem changeValue_only_for_registered_names (ops : list operation) :
  notified_names_registered
    (run getExtensions getTypeExt notifiesUnchanged globals ops create).
Proof.
  assert (forall s, notified_names_registered s ->
            notified_names_registered
              (run getExtensions getTypeExt notifiesUnchanged globals ops s)) as Hrun.
  { induction ops as [|op ops IH]; intros s Hinv; [done|].
    simpl. by apply IH, notified_perform. }
  apply Hrun. intros k v Hin. by apply not_elem_of_nil in Hin.
Qed.

Lemma keeps_refl (s : MemorySettings) : keeps s s.
Proof. by repeat split. Qed.

Lemma keeps_trans (s1 s2 s3 : MemorySettings) : keeps s1 s2 -> keeps s2 s3 -> keeps s1 s3.
Proof.
  intros (Hp1 & Ho1 & Hc1) (Hp2 & Ho2 & Hc2).
  repeat split; by etrans.
Qed.

Lemma keeps_set (key : string) (v : value) (s : MemorySettings) :
  keeps s (set notifiesUnchanged key v s).
Proof.
  repeat split.
  - rewrite properties_set, dom_insert_L. set_solver.
  - by rewrite observers_set.
  - rewrite changes_set. by apply prefix_app_r.
Qed.

Lemma keeps_addObserver (key : string) (s : MemorySettings) : keeps s (addObserver key s).
Proof. repeat split; [done| |done]. simpl. by apply prefix_app_r. Qed.

Lemma keeps_perform (s : MemorySettings) (op : operation) :
  keeps s (perform getExtensions getTypeExt notifiesUnchanged globals s op).
Proof.
  destruct op as [settingExt|key v|key|data|]; cbn [perform].
  - destruct (addSetting getExtensions getTypeExt notifiesUnchanged settingExt s)
      as [s'|e] eqn:Hadd; [|apply keeps_refl].
    apply addSetting_returns_inv in Hadd as (_ & ty & _ & _ & ->). simpl.
    eapply keeps_trans; [apply keeps_set|apply keeps_addObserver].
  - apply keeps_set.
  - unfold resetValue. destruct (choice_settings globals) as [settings|];
      [|apply keeps_refl].
    destruct (settings !! key) as [setting|]; simpl; [apply keeps_set|].
    case_match; apply keeps_refl.
  - rewrite loadFromObject_object. apply keeps_refl.
  - rewrite loadInitialValues_object. apply keeps_refl.
Qed.

(** X4: no call takes anything away.  After any sequence of calls the
    object still has every property it had, the observers it had are the
    first of the observers it has, and the calls of [_changeValue] recorded
    before are the first of those recorded now: a setting, once registered,
    stays registered, and [resetValue] deletes neither a value nor an
    observer. *)
Theorem calls_remove_nothing (ops : list operation) (s : MemorySettings) :
  keeps s (run getExtensions getTypeExt notifiesUnchanged globals ops s).
Proof.
  revert s. induction ops as [|op ops IH]; intros s; [apply keeps_refl|].
  simpl. eapply keeps_trans; [apply keeps_perform|apply IH].
Qed.

End CallFacts.

(** ** The default values *)

Lemma assign_own_keys (key : string) (v : value) (o : list (string * value)) :
  (assign_own key v o).*1 = if decide (key ∈ o.*1) then o.*1 else o.*1 ++ [key].
Proof.
  induction o as [|[k x] rest IH].
  - destruct (decide (key ∈ ([] : list (string * value)).*1)) as [Hin|_]; [|done].
    by apply not_elem_of_nil in Hin.
  - cbn [assign_own]. destruct (String.eqb_spec k key) as [->|Hne].
    + destruct (decide (key ∈ ((key, x) :: rest).*1)) as [_|Hnot]; [done|].
      exfalso. apply Hnot. rewrite fmap_cons. left.
    + rewrite !fmap_cons, IH. cbn [fst].
      destruct (decide (key ∈ rest.*1)) as [Hin|Hnot];
        destruct (decide (key ∈ k :: rest.*1)) as [Hin'|Hnot']; try done.
      * exfalso. apply Hnot'. by right.
      * apply elem_of_cons in Hin' as [?|?]; congruence.
Qed.

Lemma assign_own_lookup (key k' : string) (v : value) (o : list (string * value)) :
  (list_to_map (assign_own key v o) : gmap string value) !! k'
  = if decide (key = k') then Some v else (list_to_map o : gmap string value) !! k'.
Proof.
  induction o as [|[k x] rest IH]; simpl.
  - destruct (decide (key = k')) as [->|Hne].
    + by rewrite lookup_insert_eq.
    + by rewrite lookup_insert_ne.
  - destruct (String.eqb_spec k key) as [->|Hne]; simpl.
    + destruct (decide (key = k')) as [->|Hne'].
      * by rewrite lookup_insert_eq.
      * by rewrite !lookup_insert_ne.
    + destruct (decide (k = k')) as [->|Hne'].
      * rewrite !lookup_insert_eq. by rewrite decide_False.
      * by rewrite !lookup_insert_ne.
Qed.

Lemma assign_lookup (key k' : string) (v : value) (o : list (string * value)) :
  (list_to_map (assign key v o) : gmap string value) !! k'
  = if String.eqb key "__proto__" then (list_to_map o : gmap string value) !! k'
    else if decide (key = k') then Some v
    else (list_to_map o : gmap string value) !! k'.
Proof.
  unfold assign. destruct (String.eqb key "__proto__"); [done|].
  apply assign_own_lookup.
Qed.

Lemma assign_NoDup (key : string) (v : value) (o : list (string * value)) :
  NoDup o.*1 -> NoDup (assign key v o).*1.
Proof.
  intros Hnodup. unfold assign. destruct (String.eqb key "__proto__"); [done|].
  rewrite assign_own_keys. case_decide as Hin; [done|].
  apply NoDup_app. split; [done|]. split; [|apply NoDup_singleton].
  by intros k Hk ->%list_elem_of_singleton.
Qed.

(** X5: the object [_defaultValues] returns has at most one property for a
    name; a name other than [__proto__] has a property exactly when the
    catalog declares a setting of that name, and the property holds the
    default value of the last such declaration.  A setting named
    [__proto__] gets no property. *)
Theorem defaultValues_of_catalog (getExtensions : string -> list Extension) :
  NoDup (_defaultValues getExtensions).*1
  /\ forall key : string,
       (list_to_map (_defaultValues getExtensions) : gmap string value) !! key
       = if bool_decide (key = "__proto__") then None
         else defaultValue <$> last_declared getExtensions key.
Proof.
  unfold _defaultValues, last_declared.
  induction (getExtensions "setting") as [|settingExt exts IH] using rev_ind.
  - split; [constructor|]. intros key. by case_bool_decide.
  - destruct IH as (Hnodup & Hlookup).
    rewrite foldl_app, reverse_snoc. simpl.
    split; [by apply assign_NoDup|].
    intros key. rewrite assign_lookup, Hlookup.
    destruct (String.eqb_spec (property_key (name settingExt)) "__proto__")
      as [Hproto|Hproto].
    + case_bool_decide as Hkey; [done|].
      rewrite bool_decide_eq_false_2; [done|congruence].
    + destruct (decide (property_key (name settingExt) = key)) as [Heq|Hne].
      * rewrite (bool_decide_eq_false_2 (key = "__proto__")) by congruence.
        by rewrite bool_decide_eq_true_2.
      * by rewrite (bool_decide_eq_false_2 (property_key (name settingExt) = key)).
Qed.

(** ** Loading, saving and listing *)

Lemma groupPromises_resolved {A : Type} (ps : list (promise A)) :
  (exists l : list A, groupPromises ps = Resolved l) <-> Forall is_resolved ps.
Proof.
  induction ps as [|p ps IH]; simpl.
  - split; [constructor|by eexists].
  - split.
    + intros [l Hl]. destruct p as [a| |]; destruct (groupPromises ps) as [l'| |];
        try done.
      constructor; [by exists a|]. apply IH. by exists l'.
    + intros Hall. apply Forall_cons in Hall as [[a ->] Hrest].
      apply IH in Hrest as [l ->]. by eexists.
Qed.

Lemma reply_promise_cases {A B : Type} (group : promise (list A)) (data : B) :
  (reply_promise group data = Resolved data /\ exists l, group = Resolved l)
  \/ (reply_promise group data = Pending /\ forall l, group <> Resolved l).
Proof. destruct group as [l| |]; [left|right|right]; split; eauto; done. Qed.

Section LoadSaveFacts.

Variable getExtensions : string -> list Extension.
Variable getTypeExt : option string -> option SettingType.
Variable notifiesUnchanged : bool.

Lemma load_steps_thrown (entries : list (string * value)) (s : MemorySettings) (e : thrown) :
  foldl (load_step getExtensions getTypeExt notifiesUnchanged) (s, Throws e) entries
  = (s, Throws e).
Proof. induction entries as [|entry entries IH]; [done|]. simpl. apply IH. Qed.

Lemma load_step_returns (s : MemorySettings) (promises : list (promise value))
    (entry : string * value) :
  load_step getExtensions getTypeExt notifiesUnchanged (s, Returns promises) entry
  = match getExtensionByKey getExtensions "type" entry.1 with
    | Some settingExt =>
        match types_fromString getTypeExt entry.2 (type settingExt) with
        | Resolved _ => (s, Throws (TypeError "this.set"))
        | p => (s, Returns (promises ++ [p]))
        end
    | None => (s, Returns promises)
    end.
Proof.
  unfold load_step. simpl.
  destruct (getExtensionByKey getExtensions "type" entry.1) as [settingExt|]; [|done].
  by destruct (types_fromString getTypeExt entry.2 (type settingExt)).
Qed.

Lemma conversions_for_cons (entry : string * value) (entries : list (string * value)) :
  conversions_for getExtensions getTypeExt (entry :: entries)
  = match getExtensionByKey getExtensions "type" entry.1 with
    | Some settingExt =>
        types_fromString getTypeExt entry.2 (type settingExt)
        :: conversions_for getExtensions getTypeExt entries
    | None => conversions_for getExtensions getTypeExt entries
    end.
Proof.
  unfold conversions_for. simpl.
  by destruct (getExtensionByKey getExtensions "type" entry.1).
Qed.

(** What the loop ends with: the promises it has pushed, none of them
    resolved, or the TypeError of the handler. *)
Lemma load_steps_outcome (entries : list (string * value)) (s : MemorySettings)
    (promises : list (promise value)) :
  (foldl (load_step getExtensions getTypeExt notifiesUnchanged)
         (s, Returns promises) entries).2
  = Throws (TypeError "this.set")
  \/ ((foldl (load_step getExtensions getTypeExt notifiesUnchanged)
             (s, Returns promises) entries).2
      = Returns (promises ++ conversions_for getExtensions getTypeExt entries)
      /\ Forall (fun p => ~ is_resolved p)
                (conversions_for getExtensions getTypeExt entries)).
Proof.
  revert promises. induction entries as [|entry entries IH]; intros promises.
  - right. simpl. by rewrite app_nil_r.
  - cbn [foldl]. rewrite load_step_returns, conversions_for_cons.
    destruct (getExtensionByKey getExtensions "type" entry.1) as [settingExt|];
      [|apply IH].
    destruct (types_fromString getTypeExt entry.2 (type settingExt)) as [x| |] eqn:Hp.
    + left. by rewrite load_steps_thrown.
    + destruct (IH (promises ++ [Rejected])) as [Hthrow|[Hret Hnone]]; [by left|].
      right. rewrite Hret, <- app_assoc. split; [done|].
      constructor; [|done]. by intros [a Ha].
    + destruct (IH (promises ++ [Pending])) as [Hthrow|[Hret Hnone]]; [by left|].
      right. rewrite Hret, <- app_assoc. split; [done|].
      constructor; [|done]. by intros [a Ha].
Qed.

(** A loop that has no conversion to ask for returns the promises it
    started with. *)
Lemma load_steps_quiet (entries : list (string * value)) (s : MemorySettings)
    (promises : list (promise value)) :
  conversions_for getExtensions getTypeExt entries = [] ->
  (foldl (load_step getExtensions getTypeExt notifiesUnchanged)
         (s, Returns promises) entries).2
  = Returns promises.
Proof.
  induction entries as [|entry entries IH]; intros Hnone; [done|].
  cbn [foldl]. rewrite load_step_returns. rewrite conversions_for_cons in Hnone.
  destruct (getExtensionByKey getExtensions "type" entry.1); [done|].
  by apply IH.
Qed.

(** X6: [_loadFromObject], and with it [_loadDefaultValues] and
    [_loadInitialValues], never changes the settings object, whatever the
    catalog, the types and the data, and whether the call returns or
    throws: the handler that would call [set] is not bound to the object.
    What the call throws is a TypeError, of [data.hasOwnProperty] or of the
    handler, and a promise it returns is never rejected. *)
Theorem loadFromObject_changes_nothing (data : list (string * value)) (s : MemorySettings) :
  (_loadFromObject getExtensions getTypeExt notifiesUnchanged data s).1 = s
  /\ (_loadDefaultValues getExtensions getTypeExt notifiesUnchanged s).1 = s
  /\ (_loadInitialValues getExtensions getTypeExt notifiesUnchanged s).1 = s
  /\ match (_loadFromObject getExtensions getTypeExt notifiesUnchanged data s).2 with
     | Returns reply => reply <> Rejected
     | Throws e => e = TypeError "data.hasOwnProperty" \/ e = TypeError "this.set"
     end.
Proof.
  unfold _loadInitialValues, _loadDefaultValues.
  repeat split; try apply loadFromObject_object.
  unfold _loadFromObject. case_bool_decide; simpl; [by left|].
  destruct (load_steps_outcome (for_in data) s []) as [->|[-> _]]; [by right|].
  by destruct (groupPromises _).
Qed.

(** X7: the call of [_loadFromObject] returns a resolved promise exactly
    when the data has no own key [hasOwnProperty] and the look-up finds an
    extension for none of its keys.  Once a conversion has to be asked for,
    the promise cannot be resolved: a conversion that is resolved runs the
    handler, which raises a TypeError, and one that is not leaves the group
    unresolved; the call then returns a pending promise or throws. *)
Theorem loadFromObject_completion (data : list (string * value)) (s : MemorySettings) :
  ((_loadFromObject getExtensions getTypeExt notifiesUnchanged data s).2
   = Returns (Resolved tt)
   <-> ("hasOwnProperty" ∉ data.*1)
       /\ requested_conversions getExtensions getTypeExt data = [])
  /\ ((_loadFromObject getExtensions getTypeExt notifiesUnchanged data s).2
      = Returns (Resolved tt)
      \/ (_loadFromObject getExtensions getTypeExt notifiesUnchanged data s).2
         = Returns Pending
      \/ exists what : string,
           (_loadFromObject getExtensions getTypeExt notifiesUnchanged data s).2
           = Throws (TypeError what)).
Proof.
  unfold _loadFromObject, requested_conversions.
  case_bool_decide as Hown; simpl.
  { split; [|right; right; by eexists]. split; [done|]. by intros [? _]. }
  destruct (load_steps_outcome (for_in data) s []) as [Hthrow|[Hret Hnone]].
  { rewrite Hthrow. split; [|right; right; by eexists]. split; [done|].
    intros [_ Hempty]. by rewrite (load_steps_quiet _ s [] Hempty) in Hthrow. }
  rewrite Hret.
  simpl.
  destruct (reply_promise_cases
              (groupPromises (conversions_for getExtensions getTypeExt (for_in data))) tt)
    as [[-> Hgroup]|[-> Hgroup]].
  - split; [|by left]. split; [|done]. intros _. split; [done|].
    apply groupPromises_resolved in Hgroup.
    destruct (conversions_for getExtensions getTypeExt (for_in data)) as [|p ps]; [done|].
    apply Forall_cons in Hnone as [Hnot _]. apply Forall_cons in Hgroup as [Hyes _].
    by destruct Hnot.
  - split; [|right; by left]. split; [done|]. intros [_ Hempty].
    rewrite Hempty in Hgroup. by destruct (Hgroup []).
Qed.

Lemma save_steps_reply (s : MemorySettings) (names : list (option string))
    (key str : string) :
  (foldl (save_step getExtensions getTypeExt s) (∅, []) names).1 !! key = Some str
  <-> key <> "__proto__"
      /\ (exists n : option string, n ∈ names /\ property_key n = key)
      /\ exists settingExt : Extension,
           getExtensionByKey getExtensions "type" key = Some settingExt
           /\ types_toString getTypeExt (get key s) (type settingExt) = Resolved str.
Proof.
  induction names as [|n names IH] using rev_ind.
  - simpl. split; [done|]. intros (_ & (n & Hn & _) & _). by apply not_elem_of_nil in Hn.
  - rewrite foldl_app. simpl. unfold save_step at 1.
    set (acc := foldl (save_step getExtensions getTypeExt s) (∅, []) names) in *.
    assert (forall P : Prop,
              (key <> "__proto__"
               /\ (exists n0 : option string, n0 ∈ names ++ [n] /\ property_key n0 = key)
               /\ P)
              <-> (key <> "__proto__"
                   /\ (exists n0 : option string, n0 ∈ names /\ property_key n0 = key)
                   /\ P)
                  \/ (key <> "__proto__" /\ property_key n = key /\ P)) as Hsplit.
    { intros P. split.
      - intros (Hkey & (n0 & [Hin| ->%list_elem_of_singleton]%elem_of_app & Hn0) & HP).
        + left. split; [done|]. split; [by exists n0|done].
        + by right.
      - intros [(Hkey & (n0 & Hin & Hn0) & HP)|(Hkey & Hn & HP)].
        + split; [done|]. split; [|done]. exists n0. split; [|done].
          apply elem_of_app. by left.
        + split; [done|]. split; [|done]. exists n. split; [|done].
          apply elem_of_app. right. left. }
    rewrite Hsplit. clear Hsplit.
    destruct (getExtensionByKey getExtensions "type" (property_key n))
      as [settingExt|] eqn:Hext.
    + simpl.
      destruct (types_toString getTypeExt (get (property_key n) s) (type settingExt))
        as [x| |] eqn:Hconv; simpl.
      * unfold put.
        destruct (String.eqb_spec (property_key n) "__proto__") as [Hproto|Hproto].
        -- rewrite IH. split; [by left|].
           intros [?|(Hkey & Hn & _)]; [done|congruence].
        -- destruct (decide (property_key n = key)) as [<-|Hne].
           ++ rewrite lookup_insert_eq. split.
              ** intros [= <-]. right. split; [done|]. split; [done|].
                 by exists settingExt.
              ** intros [(_ & _ & ext & Hext' & Hconv')|(_ & _ & ext & Hext' & Hconv')];
                   congruence.
           ++ rewrite lookup_insert_ne by done. rewrite IH. split; [by left|].
              intros [?|(_ & ? & _)]; [done|congruence].
      * rewrite IH. split; [by left|].
        intros [?|(_ & <- & ext & Hext' & Hconv')]; [done|congruence].
      * rewrite IH. split; [by left|].
        intros [?|(_ & <- & ext & Hext' & Hconv')]; [done|congruence].
    + rewrite IH. split; [by left|].
      intros [?|(_ & <- & ext & Hext' & _)]; [done|congruence].
Qed.

End LoadSaveFacts.

(** X8: when the promise of [_saveToObject] is resolved, the object it
    carries has a string under a key exactly when the key is not
    [__proto__], is the name of a setting of the catalog for which the
    look-up finds an extension, and the string is the one the type plugin
    made of the current value of that setting with the type of that
    extension.  The promise is never rejected. *)
Theorem saveToObject_snapshot (getExtensions : string -> list Extension)
    (getTypeExt : option string -> option SettingType) (s : MemorySettings) :
  (forall reply : gmap string string,
     _saveToObject getExtensions getTypeExt s = Resolved reply ->
     forall key str : string,
       reply !! key = Some str
       <-> key <> "__proto__"
           /\ (exists n : option string,
                 n ∈ _getSettingNames getExtensions /\ property_key n = key)
           /\ exists settingExt : Extension,
                getExtensionByKey getExtensions "type" key = Some settingExt
                /\ types_toString getTypeExt (get key s) (type settingExt)
                   = Resolved str)
  /\ _saveToObject getExtensions getTypeExt s <> Rejected.
Proof.
  unfold _saveToObject.
  set (saved := foldl (save_step getExtensions getTypeExt s) (∅, [])
                  (_getSettingNames getExtensions)).
  destruct (reply_promise_cases (groupPromises saved.2) saved.1)
    as [[-> _]|[-> _]]; split; try done.
  intros reply [= <-] key str. apply save_steps_reply.
Qed.

(** X9: without a global [prop], [_list] returns the empty list when the
    catalog declares no setting and throws a ReferenceError as soon as it
    declares one, whatever the object holds: it never returns an entry. *)
Theorem list_of_catalog (getExtensions : string -> list Extension) (s : MemorySettings) :
  _list getExtensions no_globals s
  = match getExtensions "setting" with
    | [] => Returns []
    | _ :: _ => Throws (ReferenceError "prop")
    end.
Proof.
  destruct (getExtensions "setting") as [|settingExt exts] eqn:Hexts.
  - unfold _list, _getSettingNames. by rewrite Hexts.
  - apply list_without_prop. by rewrite Hexts.
Qed.

Section CountingFacts.

Variable getExtensions : string -> list Extension.
Variable getTypeExt : option string -> option SettingType.
Variable notifiesUnchanged : bool.
Variable globals : GlobalScope.

Lemma addSetting_accepts (settingExt : Extension) (s : MemorySettings) :
  after (addSetting getExtensions getTypeExt notifiesUnchanged settingExt s) s
  = if accepts getTypeExt settingExt
    then addObserver (property_key (name settingExt))
           (set notifiesUnchanged (property_key (name settingExt))
              (defaultValue settingExt) s)
    else s.
Proof.
  unfold addSetting, accepts.
  destruct (to_boolean (member (name settingExt))); simpl; [|done].
  destruct (getTypeExt (type settingExt)) as [ty|]; [|done]. simpl.
  by destruct (isValid ty (defaultValue settingExt)).
Qed.

Lemma observer_count_perform (key : string) (s : MemorySettings) (op : operation) :
  observer_count key (perform getExtensions getTypeExt notifiesUnchanged globals s op)
  = (observer_count key s + if registers getTypeExt key op then 1 else 0)%nat.
Proof.
  destruct op as [settingExt|k v|k|data|]; cbn [perform registers].
  - rewrite addSetting_accepts. destruct (accepts getTypeExt settingExt); simpl; [|lia].
    unfold observer_count, addObserver. simpl.
    rewrite observers_set, filter_app, length_app. simpl.
    case_bool_decide as Hkey.
    + rewrite filter_cons_True by done. simpl. lia.
    + rewrite filter_cons_False by done. simpl. lia.
  - unfold observer_count. rewrite observers_set. lia.
  - unfold resetValue. destruct (choice_settings globals) as [settings|]; simpl; [|lia].
    destruct (settings !! k) as [setting|]; simpl.
    + unfold observer_count. rewrite observers_set. lia.
    + case_match; simpl; lia.
  - rewrite loadFromObject_object. lia.
  - unfold _loadInitialValues, _loadDefaultValues. rewrite loadFromObject_object. lia.
Qed.

(** X10: the number of observers a name has after any sequence of calls is
    the number it had before plus the number of [addSetting] calls in the
    sequence that name it and pass the checks; whether such a call passes
    depends on the declaration alone.  No other call adds an observer, and
    none removes one, so a later [set] of the name is reported once for
    each of these registrations. *)
Theorem observers_count_registrations (key : string) (ops : list operation)
    (s : MemorySettings) :
  observer_count key (run getExtensions getTypeExt notifiesUnchanged globals ops s)
  = (observer_count key s + registrations getTypeExt key ops)%nat.
Proof.
  unfold run. revert s. induction ops as [|op ops IH]; intros s.
  - unfold registrations. simpl. lia.
  - cbn [foldl]. rewrite IH, observer_count_perform. unfold registrations.
    destruct (registers getTypeExt key op) eqn:Hop.
    + rewrite filter_cons_True by done. simpl. lia.
    + rewrite filter_cons_False by (rewrite Hop; done). lia.
Qed.

(** C8, as the module has it: the set by which [addSetting] applies the
    default value of a name that has no observer yet runs before the
    observer is attached and calls [_changeValue] for nothing.  After that
    registration, whatever calls are made, for as long as the name is not
    registered again every set that changes the value of the setting calls
    [_changeValue] exactly once, with the name and the new value. *)
Theorem onChange_after_first_registration
    (settingExt : Extension) (s : MemorySettings) (ty : SettingType) :
  to_boolean (member (name settingExt)) = true ->
  getTypeExt (type settingExt) = Some ty ->
  isValid ty (defaultValue settingExt) = true ->
  property_key (name settingExt) ∉ observers s ->
  exists s' : MemorySettings,
    addSetting getExtensions getTypeExt notifiesUnchanged settingExt s = Returns s'
    /\ get (property_key (name settingExt)) s' = defaultValue settingExt
    /\ changes s' = changes s
    /\ forall (ops : list operation) (v : value),
         registrations getTypeExt (property_key (name settingExt)) ops = 0%nat ->
         get (property_key (name settingExt))
             (run getExtensions getTypeExt notifiesUnchanged globals ops s') <> v ->
         changes (set notifiesUnchanged (property_key (name settingExt)) v
                    (run getExtensions getTypeExt notifiesUnchanged globals ops s'))
         = changes (run getExtensions getTypeExt notifiesUnchanged globals ops s')
           ++ [(property_key (name settingExt), v)].
Proof.
  intros Hname Hty Hok Hfresh.
  set (key := property_key (name settingExt)) in *.
  destruct (addSetting_accepted getExtensions getTypeExt notifiesUnchanged
              settingExt s ty Hname Hty Hok) as (s' & Hadd & Hget & _ & Hcount).
  fold key in Hget, Hcount.
  exists s'. split; [done|]. split; [done|].
  rewrite (observer_count_absent _ _ Hfresh) in Hcount.
  split.
  - rewrite (addSetting_valid getExtensions getTypeExt notifiesUnchanged
               settingExt s ty Hname Hty), Hok in Hadd.
    injection Hadd as <-. unfold addObserver. simpl. fold key.
    rewrite changes_set, (observer_count_absent _ _ Hfresh). simpl.
    case_match; by rewrite app_nil_r.
  - intros ops v Hnone Hchanged.
    assert (forall (calls : list operation) (s0 : MemorySettings),
              observer_count key
                (run getExtensions getTypeExt notifiesUnchanged globals calls s0)
              = (observer_count key s0 + registrations getTypeExt key calls)%nat)
      as Hobservers.
    { unfold run. induction calls as [|op calls IH]; intros s0.
      - unfold registrations. simpl. lia.
      - cbn [foldl]. rewrite IH, observer_count_perform. unfold registrations.
        destruct (registers getTypeExt key op) eqn:Hop.
        + rewrite filter_cons_True by done. simpl. lia.
        + rewrite filter_cons_False by (rewrite Hop; done). lia. }
    rewrite changes_set_changed by done.
    by rewrite Hobservers, Hcount, Hnone.
Qed.

End CountingFacts.

(** ** These properties on the example catalog *)

Lemma onChange_after_first_registration_witness :
  ("tabsize" ∉ observers create)
  /\ exists s' : MemorySettings,
       addSetting (example_catalog [tabsize]) example_types false tabsize create = Returns s'
       /\ get "tabsize" s' = VNumber 4
       /\ changes s' = changes create
       /\ forall (ops : list operation) (v : value),
            registrations example_types "tabsize" ops = 0%nat ->
            get "tabsize"
                (run (example_catalog [tabsize]) example_types false no_globals ops s')
            <> v ->
            changes (set false "tabsize" v
                       (run (example_catalog [tabsize]) example_types false no_globals
                            ops s'))
            = changes (run (example_catalog [tabsize]) example_types false no_globals
                           ops s')
              ++ [("tabsize", v)].
Proof.
  assert ("tabsize" ∉ observers create) as Hfresh by (simpl; apply not_elem_of_nil).
  split; [exact Hfresh|].
  exact (onChange_after_first_registration (example_catalog [tabsize]) example_types false
           no_globals tabsize create number_type eq_refl eq_refl eq_refl Hfresh).
Defined.

Lemma addSetting_postcondition_witness :
  addSetting (example_catalog [tabsize]) example_types true tabsize create
  = Returns (registered true [tabsize])
  /\ properties (registered true [tabsize]) = <["tabsize" := VNumber 4]> ∅
  /\ observers (registered true [tabsize]) = ["tabsize"]
  /\ exists ty : SettingType,
       example_types (Some "number") = Some ty
       /\ isValid ty (get "tabsize" (registered true [tabsize])) = true.
Proof.
  assert (addSetting (example_catalog [tabsize]) example_types true tabsize create
          = Returns (registered true [tabsize])) as Hadd by reflexivity.
  split; [exact Hadd|].
  destruct (addSetting_postcondition (example_catalog [tabsize]) example_types true
              tabsize create (registered true [tabsize]) Hadd)
    as (Hprops & Hobs & _ & Hvalid).
  split; [exact Hprops|]. split; [exact Hobs|exact Hvalid].
Defined.

Lemma saveToObject_snapshot_witness :
  _saveToObject (fun _ => [tabsize]) example_types (registered true [tabsize])
  = Resolved {["tabsize" := "4"]}
  /\ ({["tabsize" := "4"]} : gmap string string) !! "tabsize" = Some "4"
  /\ "tabsize" <> "__proto__"
  /\ (exists n : option string,
        n ∈ _getSettingNames (fun _ => [tabsize]) /\ property_key n = "tabsize")
  /\ exists settingExt : Extension,
       getExtensionByKey (fun _ => [tabsize]) "type" "tabsize" = Some settingExt
       /\ types_toString example_types (get "tabsize" (registered true [tabsize]))
            (type settingExt)
          = Resolved "4".
Proof.
  assert (_saveToObject (fun _ => [tabsize]) example_types (registered true [tabsize])
          = Resolved {["tabsize" := "4"]}) as Hsave by (vm_compute; reflexivity).
  assert (({["tabsize" := "4"]} : gmap string string) !! "tabsize" = Some "4") as Hkey
    by reflexivity.
  split; [exact Hsave|]. split; [exact Hkey|].
  exact (proj1 (proj1 (saveToObject_snapshot (fun _ => [tabsize]) example_types
                         (registered true [tabsize]))
                      {["tabsize" := "4"]} Hsave "tabsize" "4") Hkey).
Defined.

(** ** One setting and the others *)

Section FrameFacts.

Variable getExtensions : string -> list Extension.
Variable getTypeExt : option string -> option SettingType.
Variable notifiesUnchanged : bool.
Variable globals : GlobalScope.

Lemma get_set_other (key k : string) (v : value) (s : MemorySettings) :
  k <> key -> get key (set notifiesUnchanged k v s) = get key s.
Proof.
  intros Hne. unfold get. rewrite properties_set. by rewrite lookup_insert_ne.
Qed.

Lemma get_perform_other (key : string) (s : MemorySettings) (op : operation) :
  names_key key op = false ->
  get key (perform getExtensions getTypeExt notifiesUnchanged globals s op) = get key s.
Proof.
  destruct op as [settingExt|k v|k|data|]; cbn [perform names_key]; intros Hop.
  - apply bool_decide_eq_false_1 in Hop. rewrite addSetting_accepts.
    destruct (accepts getTypeExt settingExt); [|done].
    unfold get, addObserver. simpl. by apply get_set_other.
  - apply bool_decide_eq_false_1 in Hop. by apply get_set_other.
  - apply bool_decide_eq_false_1 in Hop. unfold resetValue.
    destruct (choice_settings globals) as [settings|]; [|done].
    destruct (settings !! k) as [setting|]; simpl; [by apply get_set_other|].
    by case_match.
  - by rewrite loadFromObject_object.
  - unfold _loadInitialValues, _loadDefaultValues. by rewrite loadFromObject_object.
Qed.

(** X11: the value of a setting is changed only by calls that name it.
    After any sequence of [addSetting], [set], [resetValue] and load calls
    none of which names the key, [get] of the key returns what it returned
    before, however many of the calls throw. *)
Theorem get_unchanged_by_other_names (key : string) (ops : list operation)
    (s : MemorySettings) :
  Forall (fun op => names_key key op = false) ops ->
  get key (run getExtensions getTypeExt notifiesUnchanged globals ops s) = get key s.
Proof.
  unfold run. intros Hops. revert s.
  induction Hops as [|op ops Hop _ IH]; intros s; [done|].
  cbn [foldl]. rewrite IH. by apply get_perform_other.
Qed.

End FrameFacts.

Lemma get_unchanged_by_other_names_witness :
  Forall (fun op => names_key "tabsize" op = false)
         [CallAddSetting theme; CallSet "theme" (VString "light");
          CallResetValue "theme"; CallLoadInitialValues]
  /\ get "tabsize"
       (run (example_catalog [tabsize; theme]) example_types false no_globals
            [CallAddSetting theme; CallSet "theme" (VString "light");
             CallResetValue "theme"; CallLoadInitialValues]
            (registered false [tabsize]))
     = VNumber 4.
Proof.
  assert (Forall (fun op => names_key "tabsize" op = false)
            [CallAddSetting theme; CallSet "theme" (VString "light");
             CallResetValue "theme"; CallLoadInitialValues]) as Hops
    by (repeat constructor).
  split; [exact Hops|].
  exact (get_unchanged_by_other_names (example_catalog [tabsize; theme]) example_types
           false no_globals "tabsize" _ (registered false [tabsize]) Hops).
Defined.
